(** * internal/controller/users.go: the user and login handlers

    A shallow embedding of the five gin handlers of the controller
    ([HandleAuth], [HandleUsers], [HandleNewUser], [HandleUpdateUser],
    [HandleDeleteUser]) and the properties of the identity and access-control
    specification that they decide.

    The handlers are written against their collaborators exactly as the Go
    code is: the persistence layer is an interface ([Persistance]), the
    [auth], [uuid] and JSON-binding helpers are the fields of [Collaborators].
    A handler is a state transformer over a [World]: the persistence state,
    the chronological list of collaborator calls it made, and the responses it
    wrote to the gin context. *)

From stdpp Require Import gmap strings list fin_maps.

Open Scope Z_scope.
Open Scope string_scope.

(** ** Go values *)

(** The [error] values the handlers tell apart with [errors.Is]; every other
    error is [ErrOther].  A Go [error] that may be [nil] is an
    [option error]. *)
Inductive error : Type :=
| ErrDuplicatedKey
| ErrRecordNotFound
| ErrOther (msg : string).

#[export] Instance error_eq_dec : EqDecision error.
Proof. solve_decision. Defined.

(** [errors.Is(err, target)] on the errors above; [nil] is no error. *)
Definition errors_Is (err : option error) (target : error) : bool :=
  match err with
  | Some e => bool_decide (e = target)
  | None => false
  end.

(** A Go [(value, error)] result. *)
Inductive result (A : Type) : Type :=
| Ok (a : A)
| Err (e : error).
Arguments Ok {A} a.
Arguments Err {A} e.

(** net/http status codes used by the handlers. *)
Definition StatusOK : Z := 200.
Definition StatusCreated : Z := 201.
Definition StatusBadRequest : Z := 400.
Definition StatusUnauthorized : Z := 401.
Definition StatusConflict : Z := 409.
Definition StatusInternalServerError : Z := 500.

(** ** entity *)

(** [entity.User].  [Zones] is a Go slice: [None] is the [nil] slice,
    [Some []] the empty, non-nil slice [[]string{}]. *)
Record User : Type := mkUser {
  ID : string;
  Username : string;
  PasswordHash : string;
  Role : string;
  Zones : option (list string)
}.

Record LoginBody : Type := mkLoginBody {
  LoginBody_Username : string;
  LoginBody_Password : string
}.

Record NewUserBody : Type := mkNewUserBody {
  NewUserBody_Username : string;
  NewUserBody_Password : string;
  NewUserBody_Role : string;
  NewUserBody_Zones : option (list string)
}.

(** The two bodies handed to [context.JSON]: [entity.LoginResponse] and
    [entity.RESTResult]. *)
Inductive Body : Type :=
| LoginResponse (Username Token : string) (Zones : option (list string))
    (Role : string)
| RESTResult (Results : list User) (TotalResults : nat).

(** One write to the gin context: a call of [utilities.RESTError] with its
    status, message and error, or a call of [context.JSON]. *)
Inductive Response : Type :=
| RESTError (status : Z) (message : string) (err : option error)
| JSON (status : Z) (body : Body).

Definition status_of (r : Response) : Z :=
  match r with
  | RESTError status _ _ => status
  | JSON status _ => status
  end.

(** ** The request context *)

(** What the token middleware left in the gin context for the request. *)
Inductive Identity : Type :=
| NoCredential
| MalformedCredential (raw : string)
| Claims (username role : string).

Record Context : Type := mkContext {
  identity : Identity;
  params : gmap string string;
  body : string
}.

(** [context.Param(key)]: the empty string when the route has no such
    parameter. *)
Definition Param (context : Context) (key : string) : string :=
  default EmptyString (params context !! key).

(** ** Collaborators *)

(** The helpers of [auth], [uuid] and gin's JSON binding that the handlers
    call and whose code is not part of the controller.  [NewString] is the
    identifier [uuid.NewString()] hands out for the request at hand;
    [HashPassword] is the salted hash as computed in that request. *)
Class Collaborators : Type := {
  ROLE_ADMIN : string;
  ROLE_ZONE_ADMIN : string;
  HashPassword : string → result string;
  ValidatePassword : string → string → bool;
  GenerateToken : string → string → result string;
  NewString : string;
  BindJSON_LoginBody : string → result LoginBody;
  BindJSON_NewUserBody : string → result NewUserBody;
  BindJSON_User : string → result User
}.

(** [controller.persistance]: the six operations of the persistence layer
    over a state [S]. *)
Class Persistance (S : Type) : Type := {
  GetUserByUsername : S → string → result User;
  GetUserById : S → string → result User;
  GetUsers : S → result (list User);
  CreateUser : S → User → option error * S;
  SaveUser : S → User → option error * S;
  DeleteUser : S → string → option error * S
}.

(** Collaborator calls, as recorded in the trace of a handler. *)
Inductive Call : Type :=
| CallGetUserByUsername (username : string)
| CallGetUserById (id : string)
| CallGetUsers
| CallCreateUser (user : User)
| CallSaveUser (user : User)
| CallDeleteUser (id : string)
| CallHashPassword (password : string)
| CallValidatePassword (hash password : string)
| CallGenerateToken (username role : string)
| CallNewString.

Definition is_credential_call (c : Call) : bool :=
  match c with
  | CallValidatePassword _ _ | CallGenerateToken _ _ => true
  | _ => false
  end.

Definition is_persistance_call (c : Call) : bool :=
  match c with
  | CallGetUserByUsername _ | CallGetUserById _ | CallGetUsers
  | CallCreateUser _ | CallSaveUser _ | CallDeleteUser _ => true
  | _ => false
  end.

(** ** The handler monad *)

Record World (S : Type) : Type := mkWorld {
  db : S;
  calls : list Call;
  written : list Response
}.
Arguments mkWorld {S} db calls written.
Arguments db {S} w.
Arguments calls {S} w.
Arguments written {S} w.

Definition Handler (S A : Type) : Type := World S → A * World S.

#[export] Instance Handler_ret {S} : MRet (Handler S) :=
  λ A a w, (a, w).
#[export] Instance Handler_bind {S} : MBind (Handler S) :=
  λ A B k m w, let '(a, w') := m w in k a w'.

Definition write {S} (r : Response) : Handler S unit :=
  λ w, (tt, mkWorld (db w) (calls w) (written w ++ [r])).

(** A read of the persistence layer. *)
Definition query {S A} (c : Call) (f : S → A) : Handler S A :=
  λ w, (f (db w), mkWorld (db w) (calls w ++ [c]) (written w)).

(** A mutation of the persistence layer. *)
Definition exec {S} (c : Call) (f : S → option error * S)
  : Handler S (option error) :=
  λ w, let '(e, s) := f (db w) in (e, mkWorld s (calls w ++ [c]) (written w)).

(** A call of a helper that does not touch the persistence layer. *)
Definition invoke {S A} (c : Call) (a : A) : Handler S A :=
  λ w, (a, mkWorld (db w) (calls w ++ [c]) (written w)).

(** Runs a handler on a fresh request against the persistence state [s]. *)
Definition serve {S} (h : Handler S unit) (s : S) : World S :=
  (h (mkWorld s [] [])).2.

(** gin's response writer starts every request at [http.StatusOK] and sends
    that status when the handler returns without writing. *)
Definition defaultStatus : Z := StatusOK.

(** The status line the caller receives. *)
Definition final_status {S} (w : World S) : Z :=
  match written w with
  | [] => defaultStatus
  | r :: _ => status_of r
  end.

Section Controller.
Context {collab : Collaborators} {S : Type} {store : Persistance S}.

(** Modelled from the spec: [auth.HasRole], whose code is not part of the
    controller.  Section 4.3: given the validated identity of the request,
    exact role match; an absent or malformed identity has no role. *)
Definition HasRole (context : Context) (requiredRole : string) : bool :=
  match identity context with
  | Claims _ role => bool_decide (role = requiredRole)
  | NoCredential | MalformedCredential _ => false
  end.

Definition HandleAuth (context : Context) : Handler S unit :=
  match BindJSON_LoginBody (body context) with
  | Err bindErr =>
      write (RESTError StatusBadRequest "invalid body" (Some bindErr))
  | Ok payload =>
      found ← query (CallGetUserByUsername (LoginBody_Username payload))
                (λ s, GetUserByUsername s (LoginBody_Username payload));
      match found with
      | Err userErr =>
          write (RESTError StatusUnauthorized "user not found" (Some userErr))
      | Ok dbUser =>
          valid ← invoke
                    (CallValidatePassword (PasswordHash dbUser)
                       (LoginBody_Password payload))
                    (ValidatePassword (PasswordHash dbUser)
                       (LoginBody_Password payload));
          if negb valid then
            write (RESTError StatusUnauthorized "invalid password" None)
          else
            signed ← invoke
                       (CallGenerateToken (Username dbUser) (Role dbUser))
                       (GenerateToken (Username dbUser) (Role dbUser));
            match signed with
            | Err tokenErr =>
                write (RESTError StatusInternalServerError
                         "unable to generate token" (Some tokenErr))
            | Ok token =>
                write (JSON StatusOK
                         (LoginResponse (Username dbUser) token
                            (Zones dbUser) (Role dbUser)))
            end
      end
  end.

Definition not_permitted : Response :=
  RESTError StatusUnauthorized
    "user does not have permission to access this resource" None.

Definition HandleUsers (context : Context) : Handler S unit :=
  if negb (HasRole context ROLE_ADMIN) then write not_permitted
  else
    listed ← query CallGetUsers (λ s, GetUsers s);
    match listed with
    | Err usersErr =>
        write (RESTError StatusInternalServerError "unable to get users"
                 (Some usersErr))
    | Ok users =>
        write (JSON StatusOK (RESTResult users (length users)))
    end.

Definition HandleNewUser (context : Context) : Handler S unit :=
  if negb (HasRole context ROLE_ADMIN) then write not_permitted
  else
    match BindJSON_NewUserBody (body context) with
    | Err bindErr =>
        write (RESTError StatusBadRequest "invalid request body" (Some bindErr))
    | Ok payload =>
        if bool_decide (NewUserBody_Role payload ≠ ROLE_ADMIN)
           && bool_decide (NewUserBody_Role payload ≠ ROLE_ZONE_ADMIN)
        then write (RESTError StatusBadRequest "invalid role" None)
        else
          hashed ← invoke (CallHashPassword (NewUserBody_Password payload))
                     (HashPassword (NewUserBody_Password payload));
          match hashed with
          | Err hashErr =>
              write (RESTError StatusInternalServerError
                       "unable to hash password" (Some hashErr))
          | Ok hash =>
              let payload_Zones :=
                match NewUserBody_Zones payload with
                | None => Some []
                | Some zones => Some zones
                end in
              id ← invoke CallNewString NewString;
              let user :=
                {| ID := id;
                   Username := NewUserBody_Username payload;
                   PasswordHash := hash;
                   Role := NewUserBody_Role payload;
                   Zones := payload_Zones |} in
              storeErr ← exec (CallCreateUser user) (λ s, CreateUser s user);
              if errors_Is storeErr ErrDuplicatedKey then
                write (RESTError StatusConflict "username in use" storeErr)
              else
                match storeErr with
                | Some _ =>
                    write (RESTError StatusInternalServerError
                             "unable to store user" storeErr)
                | None => mret tt
                end
          end
    end.

Definition HandleUpdateUser (context : Context) : Handler S unit :=
  if negb (HasRole context ROLE_ADMIN) then write not_permitted
  else
    let id := Param context "id" in
    match BindJSON_User (body context) with
    | Err bindErr =>
        write (RESTError StatusBadRequest "invalid request body" (Some bindErr))
    | Ok payload =>
        found ← query (CallGetUserById id) (λ s, GetUserById s id);
        match found with
        | Err userErr =>
            write (RESTError StatusBadRequest "user does not exist"
                     (Some userErr))
        | Ok user =>
            let user :=
              {| ID := ID user;
                 Username := Username user;
                 PasswordHash := PasswordHash user;
                 Role := Role user;
                 Zones := Zones payload |} in
            storeErr ← exec (CallSaveUser user) (λ s, SaveUser s user);
            match storeErr with
            | Some _ =>
                write (RESTError StatusInternalServerError
                         "unable to store user" storeErr)
            | None => mret tt
            end
        end
    end.

Definition HandleDeleteUser (context : Context) : Handler S unit :=
  if negb (HasRole context ROLE_ADMIN) then write not_permitted
  else
    let id := Param context "id" in
    deleteErr ← exec (CallDeleteUser id) (λ s, DeleteUser s id);
    if errors_Is deleteErr ErrRecordNotFound then
      write (RESTError StatusBadRequest "user does not exist" None)
    else
      match deleteErr with
      | Some _ =>
          write (RESTError StatusBadRequest "unable to delete user" deleteErr)
      | None => mret tt
      end.

End Controller.

(** ** The persistence layer *)

(** Modelled from the spec: the user table of the persistence collaborator,
    whose code is not part of the controller.  Section 3: a user is a durable
    record identified by its [ID]; the table maps each [ID] to the other
    fields of the record. *)
Record UserRow : Type := mkUserRow {
  row_Username : string;
  row_PasswordHash : string;
  row_Role : string;
  row_Zones : option (list string)
}.

Definition row_of (u : User) : UserRow :=
  {| row_Username := Username u;
     row_PasswordHash := PasswordHash u;
     row_Role := Role u;
     row_Zones := Zones u |}.

Definition user_of (id : string) (r : UserRow) : User :=
  {| ID := id;
     Username := row_Username r;
     PasswordHash := row_PasswordHash r;
     Role := row_Role r;
     Zones := row_Zones r |}.

Abbreviation Store := (gmap string UserRow).

Definition users_of (m : Store) : list User :=
  (λ kr, user_of kr.1 kr.2) <$> map_to_list m.

Definition username_in_use (m : Store) (username : string) : bool :=
  bool_decide (Exists (λ u, Username u = username) (users_of m)).

(** Modelled from the spec: the persistence collaborator, whose code is not
    part of the controller.  Section 6, [GetUserByUsername(username) -> User |
    NotFound]. *)
Definition mem_GetUserByUsername (m : Store) (username : string)
  : result User :=
  match filter (λ u, Username u = username) (users_of m) with
  | u :: _ => Ok u
  | [] => Err ErrRecordNotFound
  end.

(** Modelled from the spec: section 6, [GetUserById(id) -> User | NotFound]. *)
Definition mem_GetUserById (m : Store) (id : string) : result User :=
  match m !! id with
  | Some r => Ok (user_of id r)
  | None => Err ErrRecordNotFound
  end.

(** Modelled from the spec: section 6, [GetUsers() -> collection of User]. *)
Definition mem_GetUsers (m : Store) : result (list User) :=
  Ok (users_of m).

(** Modelled from the spec: section 6, [CreateUser(User) -> () | DuplicateKey
    | other], with the uniqueness of [Username] and of [ID] of section 3
    enforced by the store: a violation is a conflict, not an overwrite. *)
Definition mem_CreateUser (m : Store) (u : User) : option error * Store :=
  if username_in_use m (Username u) then (Some ErrDuplicatedKey, m)
  else
    match m !! ID u with
    | Some _ => (Some ErrDuplicatedKey, m)
    | None => (None, <[ID u := row_of u]> m)
    end.

(** Modelled from the spec: section 6, [SaveUser(User) -> () | other]; the
    row keyed by the user's [ID] is replaced by the given record. *)
Definition mem_SaveUser (m : Store) (u : User) : option error * Store :=
  (None, <[ID u := row_of u]> m).

(** Modelled from the spec: section 6, [DeleteUser(id) -> () | NotFound |
    other]; deleting an absent row is [NotFound], not a silent success. *)
Definition mem_DeleteUser (m : Store) (id : string) : option error * Store :=
  match m !! id with
  | Some _ => (None, delete id m)
  | None => (Some ErrRecordNotFound, m)
  end.

#[export] Instance MemStore : Persistance Store := {
  GetUserByUsername := mem_GetUserByUsername;
  GetUserById := mem_GetUserById;
  GetUsers := mem_GetUsers;
  CreateUser := mem_CreateUser;
  SaveUser := mem_SaveUser;
  DeleteUser := mem_DeleteUser
}.

(** ** A concrete deployment, for the examples *)

Definition alice_row : UserRow :=
  {| row_Username := "alice"; row_PasswordHash := "hash(pw1)";
     row_Role := "admin"; row_Zones := Some ["z1"] |}.

Definition one_user : Store := {[ "id-1" := alice_row ]}.

(** The request bodies of the examples are fields separated by [|]. *)
Definition separator : Ascii.ascii :=
  Ascii.Ascii false false true true true true true false.

Fixpoint fields (s : string) : list string :=
  match s with
  | EmptyString => [EmptyString]
  | String c rest =>
      if bool_decide (c = separator) then EmptyString :: fields rest
      else
        match fields rest with
        | f :: fs => String c f :: fs
        | [] => [String c EmptyString]
        end
  end.

Definition decode_LoginBody (b : string) : result LoginBody :=
  match fields b with
  | [username; password] => Ok (mkLoginBody username password)
  | _ => Err (ErrOther "invalid login body")
  end.

(** Zones are omitted when the body stops after the role. *)
Definition decode_NewUserBody (b : string) : result NewUserBody :=
  match fields b with
  | [username; password; role] =>
      Ok (mkNewUserBody username password role None)
  | username :: password :: role :: zones =>
      Ok (mkNewUserBody username password role (Some zones))
  | _ => Err (ErrOther "invalid user body")
  end.

(** An update body lists the zones; the empty body omits them. *)
Definition zones_body (zones : option (list string)) : User :=
  {| ID := EmptyString; Username := EmptyString; PasswordHash := EmptyString;
     Role := EmptyString; Zones := zones |}.

Definition decode_User (b : string) : result User :=
  if bool_decide (b = EmptyString) then Ok (zones_body None)
  else Ok (zones_body (Some (fields b))).

(** Collaborators that compute: a tagging "hash" and a token that spells out
    its claims. *)
Definition test_collaborators : Collaborators :=
  {| ROLE_ADMIN := "admin";
     ROLE_ZONE_ADMIN := "zone_admin";
     HashPassword := λ p, Ok ("hash(" ++ p ++ ")");
     ValidatePassword := λ h p, bool_decide (h = "hash(" ++ p ++ ")");
     GenerateToken := λ u r, Ok ("token:" ++ u ++ ":" ++ r);
     NewString := "id-2";
     BindJSON_LoginBody := decode_LoginBody;
     BindJSON_NewUserBody := decode_NewUserBody;
     BindJSON_User := decode_User |}.

(** A request on a route with an [:id] parameter. *)
Definition user_request (who : Identity) (id body : string) : Context :=
  {| identity := who; params := {[ "id" := id ]}; body := body |}.

(** A request on a route without parameters. *)
Definition users_request (who : Identity) (body : string) : Context :=
  {| identity := who; params := ∅; body := body |}.

Definition login_request (body : string) : Context :=
  users_request NoCredential body.

Definition root : Identity := Claims "root" "admin".

Definition zone_operator : Identity := Claims "zed" "zone_admin".

(** [one_user] after a password change: only the hash differs. *)
Definition one_user_rehashed : Store :=
  {[ "id-1" := {| row_Username := "alice"; row_PasswordHash := "hash(pw2)";
                  row_Role := "admin"; row_Zones := Some ["z1"] |} ]}.

(** ** Vocabulary of the properties *)

(** The request carries no identity with the Admin role: no credential, a
    credential that failed validation, or claims with another role. *)
Definition lacks_admin `{Collaborators} (context : Context) : Prop :=
  identity context = NoCredential ∨
  (∃ raw, identity context = MalformedCredential raw) ∨
  (∃ username role,
      identity context = Claims username role ∧ role ≠ ROLE_ADMIN).

Definition recognized_role `{Collaborators} (role : string) : Prop :=
  role = ROLE_ADMIN ∨ role = ROLE_ZONE_ADMIN.

(** The record [HandleNewUser] hands to [CreateUser] for a body [payload]
    whose password hashed to [hash]. *)
Definition created_user `{Collaborators} (payload : NewUserBody)
    (hash : string) : User :=
  {| ID := NewString;
     Username := NewUserBody_Username payload;
     PasswordHash := hash;
     Role := NewUserBody_Role payload;
     Zones := Some (default [] (NewUserBody_Zones payload)) |}.

(** The username is held by a row of the table. *)
Definition username_taken (m : Store) (username : string) : Prop :=
  ∃ id row, m !! id = Some row ∧ row_Username row = username.

(** Modelled from the spec: the outward JSON projection of [entity.User],
    whose declaration is not part of the controller.  Section 4.4: the
    password hash is excluded from any outward-facing projection. *)
Record UserView : Type := mkUserView {
  view_ID : string;
  view_Username : string;
  view_Role : string;
  view_Zones : option (list string)
}.

(** Modelled from the spec: see [UserView]. *)
Definition outward_User (u : User) : UserView :=
  {| view_ID := ID u;
     view_Username := Username u;
     view_Role := Role u;
     view_Zones := Zones u |}.

(** What the caller receives for a body handed to [context.JSON]. *)
Inductive OutwardBody : Type :=
| OutwardLogin (Username Token : string) (Zones : option (list string))
    (Role : string)
| OutwardResults (Results : list UserView) (TotalResults : nat).

Definition outward_Body (b : Body) : OutwardBody :=
  match b with
  | LoginResponse username token zones role =>
      OutwardLogin username token zones role
  | RESTResult results total =>
      OutwardResults (outward_User <$> results) total
  end.

(** Two records that agree on every field but, possibly, the hash. *)
Definition same_but_hash (u v : User) : Prop :=
  ID u = ID v ∧ Username u = Username v ∧ Role u = Role v ∧
  Zones u = Zones v.

(** ** The routes *)

Section Routes.
Context {collab : Collaborators} {S : Type} {controller : Persistance S}.






End Routes.

(** ** Vocabulary of the further properties *)

(** The calls that change the persistence state. *)
Definition is_mutation_call (c : Call) : bool :=
  match c with
  | CallCreateUser _ | CallSaveUser _ | CallDeleteUser _ => true
  | _ => false
  end.

(** The record [HandleUpdateUser] hands to [SaveUser]: the record read, with
    the zones of the body. *)
Definition updated_user (user payload : User) : User :=
  {| ID := ID user;
     Username := Username user;
     PasswordHash := PasswordHash user;
     Role := Role user;
     Zones := Zones payload |}.

(** * Properties *)

(** Unfolds a handler run down to its collaborator results. *)
Ltac run_handler :=
  unfold serve, HandleAuth, HandleUsers, HandleNewUser, HandleUpdateUser,
    HandleDeleteUser, final_status;
  unfold mbind, mret, Handler_bind, Handler_ret, query, exec, invoke, write;
  cbn [db calls written fst snd app].

Section Login.
Context {collab : Collaborators} {S : Type} {store : Persistance S}.

Lemma HandleAuth_unknown_user (context : Context) (s : S)
    (payload : LoginBody) (userErr : error) :
  BindJSON_LoginBody (body context) = Ok payload →
  GetUserByUsername s (LoginBody_Username payload) = Err userErr →
  serve (HandleAuth context) s =
    mkWorld s [CallGetUserByUsername (LoginBody_Username payload)]
      [RESTError StatusUnauthorized "user not found" (Some userErr)].
Proof.
  intros Hbind Hget. run_handler. rewrite Hbind. cbn. by rewrite Hget.
Qed.

Lemma HandleAuth_wrong_password (context : Context) (s : S)
    (payload : LoginBody) (dbUser : User) :
  BindJSON_LoginBody (body context) = Ok payload →
  GetUserByUsername s (LoginBody_Username payload) = Ok dbUser →
  ValidatePassword (PasswordHash dbUser) (LoginBody_Password payload) = false →
  serve (HandleAuth context) s =
    mkWorld s
      [CallGetUserByUsername (LoginBody_Username payload);
       CallValidatePassword (PasswordHash dbUser) (LoginBody_Password payload)]
      [RESTError StatusUnauthorized "invalid password" None].
Proof.
  intros Hbind Hget Hvalid. run_handler. rewrite Hbind. cbn.
  rewrite Hget. cbn. by rewrite Hvalid.
Qed.

Lemma HandleAuth_credential_call_inv (context : Context) (s : S) (c : Call) :
  c ∈ calls (serve (HandleAuth context) s) →
  is_credential_call c = true →
  ∃ payload dbUser,
    BindJSON_LoginBody (body context) = Ok payload ∧
    GetUserByUsername s (LoginBody_Username payload) = Ok dbUser.
Proof.
  run_handler.
  destruct (BindJSON_LoginBody (body context)) as [payload|bindErr]; cbn.
  - destruct (GetUserByUsername s (LoginBody_Username payload))
      as [dbUser|userErr] eqn:Hget; cbn.
    + eauto.
    + intros Hc Hcred. apply list_elem_of_singleton in Hc. by subst c.
  - intros Hc. by apply elem_of_nil in Hc.
Qed.

(** C1 (as amended): a login that fails because the username is unknown and
    a login that fails because the password does not verify are both answered
    with status 401, but through [RESTError] calls that differ in their
    message ("user not found" against "invalid password") and in the error they
    carry; the two responses agree on the status only. *)
Theorem login_failures_agree_on_status_only
    (context1 context2 : Context) (s1 s2 : S)
    (payload1 payload2 : LoginBody) (userErr : error) (dbUser : User) :
  BindJSON_LoginBody (body context1) = Ok payload1 →
  GetUserByUsername s1 (LoginBody_Username payload1) = Err userErr →
  BindJSON_LoginBody (body context2) = Ok payload2 →
  GetUserByUsername s2 (LoginBody_Username payload2) = Ok dbUser →
  ValidatePassword (PasswordHash dbUser) (LoginBody_Password payload2) = false →
  let unknown := serve (HandleAuth context1) s1 in
  let mismatch := serve (HandleAuth context2) s2 in
  written unknown =
    [RESTError StatusUnauthorized "user not found" (Some userErr)] ∧
  written mismatch = [RESTError StatusUnauthorized "invalid password" None] ∧
  final_status unknown = final_status mismatch ∧
  written unknown ≠ written mismatch.
Proof.
  intros Hbind1 Hget1 Hbind2 Hget2 Hvalid unknown mismatch.
  subst unknown mismatch.
  rewrite (HandleAuth_unknown_user _ _ _ _ Hbind1 Hget1).
  rewrite (HandleAuth_wrong_password _ _ _ _ Hbind2 Hget2 Hvalid).
  unfold final_status. cbn. repeat split; discriminate.
Qed.

(** C10: when the lookup of the login's username fails, the handler answers
    with the authentication failure after that single persistence call:
    neither [ValidatePassword] nor [GenerateToken] is invoked.  Conversely, a
    run that invoked either of them found a user record for the username. *)
Theorem HandleAuth_unknown_user_skips_credential_checks
    (context : Context) (s : S) (payload : LoginBody) (userErr : error) :
  BindJSON_LoginBody (body context) = Ok payload →
  GetUserByUsername s (LoginBody_Username payload) = Err userErr →
  let w := serve (HandleAuth context) s in
  written w = [RESTError StatusUnauthorized "user not found" (Some userErr)] ∧
  calls w = [CallGetUserByUsername (LoginBody_Username payload)] ∧
  Forall (λ c, is_credential_call c = false) (calls w) ∧
  (∀ (context' : Context) (s' : S) (c : Call),
      c ∈ calls (serve (HandleAuth context') s') →
      is_credential_call c = true →
      ∃ payload' dbUser,
        BindJSON_LoginBody (body context') = Ok payload' ∧
        GetUserByUsername s' (LoginBody_Username payload') = Ok dbUser).
Proof.
  intros Hbind Hget w. subst w.
  rewrite (HandleAuth_unknown_user _ _ _ _ Hbind Hget). cbn.
  repeat split.
  - by repeat constructor.
  - apply HandleAuth_credential_call_inv.
Qed.

End Login.

Section Gate.
Context {collab : Collaborators} {S : Type} {store : Persistance S}.

Lemma HasRole_lacks_admin (context : Context) :
  lacks_admin context → HasRole context ROLE_ADMIN = false.
Proof.
  unfold lacks_admin, HasRole.
  intros [-> | [[raw ->] | (username & role & -> & Hrole)]]; try done.
  by apply bool_decide_eq_false.
Qed.

(** C2: for a request whose identity is absent, malformed or without the
    Admin role, each of the four admin-gated handlers (list, create, update
    zones, delete) answers with the one [not_permitted] response, whatever the
    reason, leaves the persistence state as it was and calls no collaborator:
    no persistence read or mutation precedes the refusal. *)
Theorem admin_gate_refuses_uniformly (context : Context) (s : S) :
  lacks_admin context →
  serve (HandleUsers context) s = mkWorld s [] [not_permitted] ∧
  serve (HandleNewUser context) s = mkWorld s [] [not_permitted] ∧
  serve (HandleUpdateUser context) s = mkWorld s [] [not_permitted] ∧
  serve (HandleDeleteUser context) s = mkWorld s [] [not_permitted].
Proof.
  intros Hgate. apply HasRole_lacks_admin in Hgate.
  repeat split; run_handler; by rewrite Hgate.
Qed.

End Gate.

Section Create.
Context {collab : Collaborators} {S : Type} {store : Persistance S}.

Lemma role_check_rejects (role : string) :
  role ≠ ROLE_ADMIN → role ≠ ROLE_ZONE_ADMIN →
  bool_decide (role ≠ ROLE_ADMIN) && bool_decide (role ≠ ROLE_ZONE_ADMIN)
  = true.
Proof.
  intros Ha Hz. by rewrite !bool_decide_eq_true_2.
Qed.

Lemma role_check_accepts (role : string) :
  recognized_role role →
  bool_decide (role ≠ ROLE_ADMIN) && bool_decide (role ≠ ROLE_ZONE_ADMIN)
  = false.
Proof.
  intros [-> | ->].
  - rewrite bool_decide_eq_false_2; [done | by intros []].
  - rewrite (bool_decide_eq_false_2 (ROLE_ZONE_ADMIN ≠ ROLE_ZONE_ADMIN));
      [apply andb_false_r | by intros []].
Qed.

(** The run of [HandleNewUser] once the gate, the binding, the role check and
    the hashing have passed: the outcome is that of [CreateUser]. *)
Lemma HandleNewUser_reaches_store (context : Context) (s : S)
    (payload : NewUserBody) (hash : string) :
  HasRole context ROLE_ADMIN = true →
  BindJSON_NewUserBody (body context) = Ok payload →
  recognized_role (NewUserBody_Role payload) →
  HashPassword (NewUserBody_Password payload) = Ok hash →
  let user := created_user payload hash in
  let trace :=
    [CallHashPassword (NewUserBody_Password payload); CallNewString;
     CallCreateUser user] in
  serve (HandleNewUser context) s =
    match CreateUser s user with
    | (Some ErrDuplicatedKey, s') =>
        mkWorld s' trace
          [RESTError StatusConflict "username in use" (Some ErrDuplicatedKey)]
    | (Some e, s') =>
        mkWorld s' trace
          [RESTError StatusInternalServerError "unable to store user" (Some e)]
    | (None, s') => mkWorld s' trace []
    end.
Proof.
  intros Hgate Hbind Hrole Hhash user trace. run_handler.
  rewrite Hgate, Hbind. cbn.
  rewrite (role_check_accepts _ Hrole), Hhash. cbn.
  replace (mkUser NewString (NewUserBody_Username payload) hash
             (NewUserBody_Role payload)
             match NewUserBody_Zones payload with
             | Some zones => Some zones
             | None => Some []
             end) with user
    by (unfold user, created_user; by destruct (NewUserBody_Zones payload)).
  destruct (CreateUser s user) as [[[ | | msg]|] s']; done.
Qed.

Lemma HandleNewUser_invalid_role (context : Context) (s : S)
    (payload : NewUserBody) :
  HasRole context ROLE_ADMIN = true →
  BindJSON_NewUserBody (body context) = Ok payload →
  ¬ recognized_role (NewUserBody_Role payload) →
  serve (HandleNewUser context) s =
    mkWorld s [] [RESTError StatusBadRequest "invalid role" None].
Proof.
  intros Hgate Hbind Hrole. run_handler. rewrite Hgate, Hbind. cbn.
  rewrite role_check_rejects; [done | | ];
    intros Heq; apply Hrole; [by left | by right].
Qed.

(** C7: an authorized create-user call whose role is neither Admin nor
    ZoneAdmin is answered with 400 "invalid role" before any collaborator is
    called, so nothing is hashed and the persistence state is untouched;
    conversely, with a role in that set the handler goes on to hash the
    password and never answers "invalid role". *)
Theorem HandleNewUser_validates_role (context : Context) (s : S)
    (payload : NewUserBody) :
  HasRole context ROLE_ADMIN = true →
  BindJSON_NewUserBody (body context) = Ok payload →
  let w := serve (HandleNewUser context) s in
  (¬ recognized_role (NewUserBody_Role payload) →
     w = mkWorld s [] [RESTError StatusBadRequest "invalid role" None]) ∧
  (recognized_role (NewUserBody_Role payload) →
     head (calls w) = Some (CallHashPassword (NewUserBody_Password payload)) ∧
     RESTError StatusBadRequest "invalid role" None ∉ written w).
Proof.
  intros Hgate Hbind w. subst w. split.
  - by apply HandleNewUser_invalid_role.
  - intros Hrole.
    destruct (HashPassword (NewUserBody_Password payload))
      as [hash|hashErr] eqn:Hhash.
    + rewrite (HandleNewUser_reaches_store _ s _ _ Hgate Hbind Hrole Hhash).
      destruct (CreateUser s (created_user payload hash))
        as [[[ | | msg]|] s']; cbn; split; try done;
        rewrite ?list_elem_of_singleton; try discriminate.
      all: apply not_elem_of_nil.
    + run_handler. rewrite Hgate, Hbind. cbn.
      rewrite (role_check_accepts _ Hrole), Hhash. cbn. split; [done |].
      rewrite list_elem_of_singleton. discriminate.
Qed.

(** C9 (as amended): a create-user request that passes authorization, body
    parsing, role validation, password hashing and persistence makes the
    handler return without writing a status or a body; the caller receives
    gin's default status, 200, as after a zone update or a deletion. *)
Theorem HandleNewUser_success_writes_nothing (context : Context) (s s' : S)
    (payload : NewUserBody) (hash : string) :
  HasRole context ROLE_ADMIN = true →
  BindJSON_NewUserBody (body context) = Ok payload →
  recognized_role (NewUserBody_Role payload) →
  HashPassword (NewUserBody_Password payload) = Ok hash →
  CreateUser s (created_user payload hash) = (None, s') →
  let w := serve (HandleNewUser context) s in
  written w = [] ∧ final_status w = StatusOK ∧ db w = s'.
Proof.
  intros Hgate Hbind Hrole Hhash Hstore w. subst w.
  rewrite (HandleNewUser_reaches_store _ s _ _ Hgate Hbind Hrole Hhash).
  by rewrite Hstore.
Qed.

End Create.

Section Update.
Context {collab : Collaborators} {S : Type} {store : Persistance S}.

(** The run of [HandleUpdateUser] once the gate, the binding and the lookup
    have passed: the record read is saved with the zones of the body. *)
Lemma HandleUpdateUser_reaches_store (context : Context) (s : S)
    (payload user : User) :
  HasRole context ROLE_ADMIN = true →
  BindJSON_User (body context) = Ok payload →
  GetUserById s (Param context "id") = Ok user →
  let saved :=
    {| ID := ID user;
       Username := Username user;
       PasswordHash := PasswordHash user;
       Role := Role user;
       Zones := Zones payload |} in
  let trace := [CallGetUserById (Param context "id"); CallSaveUser saved] in
  serve (HandleUpdateUser context) s =
    match SaveUser s saved with
    | (Some e, s') =>
        mkWorld s' trace
          [RESTError StatusInternalServerError "unable to store user" (Some e)]
    | (None, s') => mkWorld s' trace []
    end.
Proof.
  intros Hgate Hbind Hget saved trace. run_handler.
  rewrite Hgate, Hbind. cbn. rewrite Hget. cbn. fold saved.
  by destruct (SaveUser s saved) as [[e|] s'].
Qed.

End Update.

Section Lifecycle.
Context {collab : Collaborators}.

Lemma username_in_use_taken (m : Store) (username : string) :
  username_taken m username → username_in_use m username = true.
Proof.
  intros (id & row & Hrow & Hname).
  apply bool_decide_eq_true, Exists_exists.
  exists (user_of id row). split; [| done].
  unfold users_of. apply list_elem_of_fmap.
  exists (id, row). split; [done |]. by apply elem_of_map_to_list.
Qed.

Lemma mem_CreateUser_taken (m : Store) (u : User) :
  username_taken m (Username u) →
  mem_CreateUser m u = (Some ErrDuplicatedKey, m).
Proof.
  intros Htaken. unfold mem_CreateUser.
  by rewrite (username_in_use_taken _ _ Htaken).
Qed.

(** C3 (as amended): a create-user call whose username is already held by a
    row of the store never succeeds and leaves the store exactly as it was:
    no row is added and the existing one is not overwritten.  The call is
    answered with one error response; when it is authorized, names a
    recognized role and its password hashes, that response is the conflict,
    409 "username in use". *)
Theorem HandleNewUser_duplicate_username (context : Context) (m : Store)
    (payload : NewUserBody) :
  BindJSON_NewUserBody (body context) = Ok payload →
  username_taken m (NewUserBody_Username payload) →
  let w := serve (HandleNewUser context) m in
  db w = m ∧
  (∃ status message err, written w = [RESTError status message err]) ∧
  (HasRole context ROLE_ADMIN = true →
   recognized_role (NewUserBody_Role payload) →
   ∀ hash, HashPassword (NewUserBody_Password payload) = Ok hash →
     written w =
       [RESTError StatusConflict "username in use" (Some ErrDuplicatedKey)]).
Proof.
  intros Hbind Htaken w.
  assert (Hdup : ∀ hash,
    CreateUser m (created_user payload hash) = (Some ErrDuplicatedKey, m))
    by (intros hash; by apply mem_CreateUser_taken).
  assert (Hpast : HasRole context ROLE_ADMIN = true →
    recognized_role (NewUserBody_Role payload) →
    ∀ hash, HashPassword (NewUserBody_Password payload) = Ok hash →
    w = mkWorld m
          [CallHashPassword (NewUserBody_Password payload); CallNewString;
           CallCreateUser (created_user payload hash)]
          [RESTError StatusConflict "username in use"
             (Some ErrDuplicatedKey)]).
  { intros Hgate Hrole hash Hhash. subst w.
    rewrite (HandleNewUser_reaches_store _ m _ _ Hgate Hbind Hrole Hhash).
    by rewrite Hdup. }
  destruct (HasRole context ROLE_ADMIN) eqn:Hgate.
  - destruct (decide (recognized_role (NewUserBody_Role payload)))
      as [Hrole|Hrole].
    + destruct (HashPassword (NewUserBody_Password payload))
        as [hash|hashErr] eqn:Hhash.
      * rewrite (Hpast eq_refl Hrole hash eq_refl). cbn. eauto 10.
      * subst w. run_handler. rewrite Hgate, Hbind. cbn.
        rewrite (role_check_accepts _ Hrole), Hhash. cbn.
        split; [done |]. split; [eauto | done].
    + subst w. rewrite (HandleNewUser_invalid_role _ m _ Hgate Hbind Hrole).
      cbn. split; [done |]. split; [eauto | done].
  - subst w. run_handler. rewrite Hgate. cbn.
    split; [done |]. split; [eauto | done].
Qed.

(** C5: an authorized delete-user call with an id that no row of the store
    carries is answered with the not-found failure, 400 "user does not
    exist", not with the silent success of a handler that writes nothing, and
    the store is the same before and after the call. *)
Theorem HandleDeleteUser_unknown_id (context : Context) (m : Store) :
  HasRole context ROLE_ADMIN = true →
  m !! Param context "id" = None →
  let w := serve (HandleDeleteUser context) m in
  written w = [RESTError StatusBadRequest "user does not exist" None] ∧
  calls w = [CallDeleteUser (Param context "id")] ∧
  final_status w = StatusBadRequest ∧
  db w = m.
Proof.
  intros Hgate Hid w. subst w. run_handler. rewrite Hgate. cbn.
  unfold mem_DeleteUser. by rewrite Hid.
Qed.

(** C6: an authorized update-user call on an id that a row of the store
    carries succeeds without writing anything, and afterwards the user read
    back under that id has the zones of the request body in place of the old
    ones (not merged with them) and the ID, Username, Role and PasswordHash
    it had before; the fields of the body other than its zones are ignored
    and every other row is untouched. *)
Theorem HandleUpdateUser_replaces_zones (context : Context) (m : Store)
    (payload : User) (row : UserRow) :
  HasRole context ROLE_ADMIN = true →
  BindJSON_User (body context) = Ok payload →
  m !! Param context "id" = Some row →
  let id := Param context "id" in
  let w := serve (HandleUpdateUser context) m in
  let saved :=
    {| ID := id;
       Username := row_Username row;
       PasswordHash := row_PasswordHash row;
       Role := row_Role row;
       Zones := Zones payload |} in
  written w = [] ∧
  calls w = [CallGetUserById id; CallSaveUser saved] ∧
  GetUserById (db w) id = Ok saved ∧
  (∀ id', id' ≠ id → db w !! id' = m !! id').
Proof.
  intros Hgate Hbind Hrow id w saved. subst w.
  assert (Hget : GetUserById m id = Ok (user_of id row))
    by (cbn; unfold mem_GetUserById; fold id in Hrow; by rewrite Hrow).
  rewrite (HandleUpdateUser_reaches_store _ m _ _ Hgate Hbind Hget). cbn.
  split; [done |]. split; [done |]. split.
  - unfold mem_GetUserById. by rewrite lookup_insert_eq.
  - intros id' Hne. by rewrite lookup_insert_ne.
Qed.

End Lifecycle.

Section Listing.
Context {collab : Collaborators} {S : Type} {store : Persistance S}.

Lemma HandleUsers_lists (context : Context) (s : S) (users : list User) :
  HasRole context ROLE_ADMIN = true →
  GetUsers s = Ok users →
  serve (HandleUsers context) s =
    mkWorld s [CallGetUsers]
      [JSON StatusOK (RESTResult users (length users))].
Proof.
  intros Hgate Hget. run_handler. rewrite Hgate. cbn. by rewrite Hget.
Qed.

Lemma outward_User_same_but_hash (users1 users2 : list User) :
  Forall2 same_but_hash users1 users2 →
  outward_User <$> users1 = outward_User <$> users2.
Proof.
  induction 1 as [|u v us vs (Hid & Hname & Hrole & Hzones) _ IH]; [done |].
  cbn. f_equal; [| exact IH].
  unfold outward_User. by rewrite Hid, Hname, Hrole, Hzones.
Qed.

(** C8: a successful list-users call hands the stored records to
    [context.JSON] with status 200, and what the caller receives of them is
    their outward projection, which has no field for the password hash: two
    stores whose records agree on everything but the hashes yield the same
    outward result, so no stored hash reaches the caller. *)
Theorem HandleUsers_hides_password_hashes (context : Context) (s1 s2 : S)
    (users1 users2 : list User) :
  HasRole context ROLE_ADMIN = true →
  GetUsers s1 = Ok users1 →
  GetUsers s2 = Ok users2 →
  Forall2 same_but_hash users1 users2 →
  ∃ body1 body2,
    written (serve (HandleUsers context) s1) = [JSON StatusOK body1] ∧
    written (serve (HandleUsers context) s2) = [JSON StatusOK body2] ∧
    outward_Body body1 =
      OutwardResults (outward_User <$> users1) (length users1) ∧
    outward_Body body1 = outward_Body body2.
Proof.
  intros Hgate Hget1 Hget2 Hsame.
  rewrite (HandleUsers_lists _ _ _ Hgate Hget1).
  rewrite (HandleUsers_lists _ _ _ Hgate Hget2).
  eexists _, _. repeat split. cbn.
  rewrite (outward_User_same_but_hash _ _ Hsame).
  by rewrite (Forall2_length _ _ _ Hsame).
Qed.

End Listing.

(** * The properties on the concrete deployment *)

Lemma login_failures_agree_on_status_only_witness :
  let unknown :=
    serve (HandleAuth (collab := test_collaborators)
             (login_request "bob|pw1")) one_user in
  let mismatch :=
    serve (HandleAuth (collab := test_collaborators)
             (login_request "alice|guess")) one_user in
  written unknown =
    [RESTError StatusUnauthorized "user not found" (Some ErrRecordNotFound)] ∧
  written mismatch = [RESTError StatusUnauthorized "invalid password" None] ∧
  final_status unknown = final_status mismatch ∧
  written unknown ≠ written mismatch.
Proof.
  apply (login_failures_agree_on_status_only (collab := test_collaborators)
           (login_request "bob|pw1")
           (login_request "alice|guess") one_user one_user
           (mkLoginBody "bob" "pw1") (mkLoginBody "alice" "guess")
           ErrRecordNotFound (user_of "id-1" alice_row));
    vm_compute; reflexivity.
Defined.

(** C1 (as stated) fails: with "alice" the only user of the store, the login
    of the unknown "bob" and the login of "alice" with a wrong password are
    answered by different responses. *)
Lemma login_failures_distinguishable :
  GetUserByUsername one_user "bob" = Err ErrRecordNotFound ∧
  GetUserByUsername one_user "alice" = Ok (user_of "id-1" alice_row) ∧
  ValidatePassword (Collaborators := test_collaborators)
    (row_PasswordHash alice_row) "guess" = false ∧
  written (serve (HandleAuth (collab := test_collaborators)
                    (login_request "bob|pw1")) one_user) ≠
  written (serve (HandleAuth (collab := test_collaborators)
                    (login_request "alice|guess")) one_user).
Proof.
  vm_compute. repeat split. discriminate.
Qed.

Lemma HandleAuth_unknown_user_skips_credential_checks_witness :
  let context := login_request "bob|pw1" in
  let w := serve (HandleAuth (collab := test_collaborators) context)
             one_user in
  written w =
    [RESTError StatusUnauthorized "user not found" (Some ErrRecordNotFound)] ∧
  calls w = [CallGetUserByUsername "bob"] ∧
  Forall (λ c, is_credential_call c = false) (calls w).
Proof.
  intros context w.
  destruct (HandleAuth_unknown_user_skips_credential_checks
              (collab := test_collaborators) context one_user
              (mkLoginBody "bob" "pw1") ErrRecordNotFound)
    as (Hwritten & Hcalls & Hnone & _);
    [vm_compute; reflexivity | vm_compute; reflexivity |].
  exact (conj Hwritten (conj Hcalls Hnone)).
Defined.

Lemma admin_gate_refuses_uniformly_witness :
  let context := user_request zone_operator "id-1" "z2" in
  lacks_admin (H := test_collaborators) context ∧
  serve (HandleUsers (collab := test_collaborators) context) one_user =
    mkWorld one_user [] [not_permitted] ∧
  serve (HandleNewUser (collab := test_collaborators) context) one_user =
    mkWorld one_user [] [not_permitted] ∧
  serve (HandleUpdateUser (collab := test_collaborators) context) one_user =
    mkWorld one_user [] [not_permitted] ∧
  serve (HandleDeleteUser (collab := test_collaborators) context) one_user =
    mkWorld one_user [] [not_permitted].
Proof.
  intros context.
  assert (Hgate : lacks_admin (H := test_collaborators) context).
  { right. right. exists "zed", "zone_admin". split; [reflexivity |].
    vm_compute. discriminate. }
  split; [exact Hgate |].
  exact (admin_gate_refuses_uniformly (collab := test_collaborators)
           context one_user Hgate).
Defined.

Lemma HandleNewUser_validates_role_witness :
  let context := users_request root "bob|pw|operator" in
  let w := serve (HandleNewUser (collab := test_collaborators) context)
             one_user in
  (¬ recognized_role (H := test_collaborators) "operator" →
     w = mkWorld one_user [] [RESTError StatusBadRequest "invalid role" None]) ∧
  (recognized_role (H := test_collaborators) "operator" →
     head (calls w) = Some (CallHashPassword "pw") ∧
     RESTError StatusBadRequest "invalid role" None ∉ written w).
Proof.
  intros context.
  apply (HandleNewUser_validates_role (collab := test_collaborators)
           context one_user (mkNewUserBody "bob" "pw" "operator" None));
    vm_compute; reflexivity.
Defined.

Lemma HandleNewUser_success_writes_nothing_witness :
  let context := users_request root "bob|pw|zone_admin|z1|z2" in
  let w := serve (HandleNewUser (collab := test_collaborators) context)
             one_user in
  written w = [] ∧ final_status w = StatusOK ∧
  db w =
    <["id-2" := {| row_Username := "bob"; row_PasswordHash := "hash(pw)";
                   row_Role := "zone_admin"; row_Zones := Some ["z1"; "z2"] |}]>
      one_user.
Proof.
  intros context.
  apply (HandleNewUser_success_writes_nothing (collab := test_collaborators)
           context one_user _
           (mkNewUserBody "bob" "pw" "zone_admin" (Some ["z1"; "z2"]))
           "hash(pw)").
  - vm_compute; reflexivity.
  - vm_compute; reflexivity.
  - right. vm_compute; reflexivity.
  - vm_compute; reflexivity.
  - vm_compute; reflexivity.
Defined.

(** C9 (as stated) fails: the admin's request to create "bob" passes every
    stage and the record is stored, yet the handler writes nothing and the
    status the caller receives is 200, not 201. *)
Lemma HandleNewUser_success_is_not_201 :
  let w := serve (HandleNewUser (collab := test_collaborators)
                    (users_request root "bob|pw|admin")) one_user in
  GetUserByUsername (db w) "bob" =
    Ok (mkUser "id-2" "bob" "hash(pw)" "admin" (Some [])) ∧
  written w = [] ∧
  final_status w = StatusOK ∧
  final_status w ≠ StatusCreated.
Proof.
  vm_compute. repeat split. discriminate.
Qed.

Lemma HandleNewUser_duplicate_username_witness :
  let context := users_request root "alice|pw|admin" in
  let w := serve (HandleNewUser (collab := test_collaborators) context)
             one_user in
  username_taken one_user "alice" ∧
  db w = one_user ∧
  (∃ status message err, written w = [RESTError status message err]) ∧
  written w =
    [RESTError StatusConflict "username in use" (Some ErrDuplicatedKey)].
Proof.
  intros context w.
  assert (Htaken : username_taken one_user "alice").
  { exists "id-1", alice_row. split; vm_compute; reflexivity. }
  destruct (HandleNewUser_duplicate_username (collab := test_collaborators)
              context one_user (mkNewUserBody "alice" "pw" "admin" None))
    as (Hdb & Hfails & Hconflict); [vm_compute; reflexivity | exact Htaken |].
  split; [exact Htaken |]. split; [exact Hdb |]. split; [exact Hfails |].
  apply (Hconflict eq_refl (or_introl eq_refl) "hash(pw)" eq_refl).
Defined.

(** C3 (as stated) fails: "alice" is taken, and the admin's request to create
    another "alice" with the role "operator" is answered with 400 "invalid
    role", not with the conflict 409. *)
Lemma HandleNewUser_duplicate_username_invalid_role :
  let w := serve (HandleNewUser (collab := test_collaborators)
                    (users_request root "alice|pw|operator")) one_user in
  username_taken one_user "alice" ∧
  written w = [RESTError StatusBadRequest "invalid role" None] ∧
  final_status w ≠ StatusConflict.
Proof.
  split; [exists "id-1", alice_row; split; vm_compute; reflexivity |].
  vm_compute. split; [reflexivity | discriminate].
Qed.

Lemma HandleDeleteUser_unknown_id_witness :
  let context := user_request root "id-9" EmptyString in
  let w := serve (HandleDeleteUser (collab := test_collaborators) context)
             one_user in
  written w = [RESTError StatusBadRequest "user does not exist" None] ∧
  calls w = [CallDeleteUser "id-9"] ∧
  final_status w = StatusBadRequest ∧
  db w = one_user.
Proof.
  intros context.
  apply (HandleDeleteUser_unknown_id (collab := test_collaborators)
           context one_user); vm_compute; reflexivity.
Defined.

Lemma HandleUpdateUser_replaces_zones_witness :
  let context := user_request root "id-1" "z2|z3" in
  let w := serve (HandleUpdateUser (collab := test_collaborators) context)
             one_user in
  let saved := mkUser "id-1" "alice" "hash(pw1)" "admin" (Some ["z2"; "z3"]) in
  written w = [] ∧
  calls w = [CallGetUserById "id-1"; CallSaveUser saved] ∧
  GetUserById (db w) "id-1" = Ok saved ∧
  (∀ id', id' ≠ "id-1" → db w !! id' = one_user !! id').
Proof.
  intros context.
  apply (HandleUpdateUser_replaces_zones (collab := test_collaborators)
           context one_user (zones_body (Some ["z2"; "z3"]))
           alice_row); vm_compute; reflexivity.
Defined.

Lemma HandleUsers_hides_password_hashes_witness :
  let context := users_request root EmptyString in
  ∃ body1 body2,
    written (serve (HandleUsers (collab := test_collaborators) context)
               one_user) = [JSON StatusOK body1] ∧
    written (serve (HandleUsers (collab := test_collaborators) context)
               one_user_rehashed) = [JSON StatusOK body2] ∧
    outward_Body body1 =
      OutwardResults [mkUserView "id-1" "alice" "admin" (Some ["z1"])] 1 ∧
    outward_Body body1 = outward_Body body2.
Proof.
  intros context.
  apply (HandleUsers_hides_password_hashes (collab := test_collaborators)
           context one_user one_user_rehashed
           [user_of "id-1" alice_row]
           [mkUser "id-1" "alice" "hash(pw2)" "admin" (Some ["z1"])]).
  - vm_compute; reflexivity.
  - vm_compute; reflexivity.
  - vm_compute; reflexivity.
  - repeat constructor.
Defined.

(** C4 fails on the update path: creating "bob" with the zones omitted
    stores the empty, non-nil zone set, but updating "alice" with a body that
    omits the zones stores the nil slice in place of her zones. *)
Theorem HandleUpdateUser_stores_nil_zones :
  let created := serve (HandleNewUser (collab := test_collaborators)
                          (users_request root "bob|pw|admin")) one_user in
  let updated := serve (HandleUpdateUser (collab := test_collaborators)
                          (user_request root "id-1" EmptyString)) one_user in
  BindJSON_NewUserBody (Collaborators := test_collaborators) "bob|pw|admin" =
    Ok (mkNewUserBody "bob" "pw" "admin" None) ∧
  Zones <$> users_of (db created) = [Some ["z1"]; Some []] ∧
  BindJSON_User (Collaborators := test_collaborators) EmptyString =
    Ok (zones_body None) ∧
  written updated = [] ∧
  calls updated =
    [CallGetUserById "id-1";
     CallSaveUser (mkUser "id-1" "alice" "hash(pw1)" "admin" None)] ∧
  Zones <$> users_of (db updated) = [None].
Proof.
  vm_compute. repeat split.
Qed.

(** * Further properties of the handlers *)

(** Splits a handler run on the results of its collaborators, outermost
    first. *)
Ltac handler_cases :=
  run_handler;
  repeat match goal with
  | |- context [HasRole ?c ?r] =>
      destruct (HasRole c r) eqn:?; cbn
  | |- context [BindJSON_LoginBody ?b] =>
      destruct (BindJSON_LoginBody b) eqn:?; cbn
  | |- context [BindJSON_NewUserBody ?b] =>
      destruct (BindJSON_NewUserBody b) eqn:?; cbn
  | |- context [BindJSON_User ?b] =>
      destruct (BindJSON_User b) eqn:?; cbn
  | |- context [GetUserByUsername ?s ?u] =>
      destruct (GetUserByUsername s u) eqn:?; cbn
  | |- context [GetUserById ?s ?i] =>
      destruct (GetUserById s i) eqn:?; cbn
  | |- context [GetUsers ?s] =>
      destruct (GetUsers s) eqn:?; cbn
  | |- context [ValidatePassword ?h ?p] =>
      destruct (ValidatePassword h p) eqn:?; cbn
  | |- context [GenerateToken ?u ?r] =>
      destruct (GenerateToken u r) eqn:?; cbn
  | |- context [bool_decide (?r ≠ ROLE_ADMIN) && ?b] =>
      destruct (bool_decide (r ≠ ROLE_ADMIN) && b) eqn:?; cbn
  | |- context [HashPassword ?p] =>
      destruct (HashPassword p) eqn:?; cbn
  | |- context [CreateUser ?s ?u] =>
      destruct (CreateUser s u) as [[[ | | ?]|] ?] eqn:?; cbn
  | |- context [SaveUser ?s ?u] =>
      destruct (SaveUser s u) as [[?|] ?] eqn:?; cbn
  | |- context [DeleteUser ?s ?i] =>
      destruct (DeleteUser s i) as [[[ | | ?]|] ?] eqn:?; cbn
  | |- context [bool_decide (?e = ErrDuplicatedKey)] =>
      destruct (bool_decide_reflect (e = ErrDuplicatedKey));
      try congruence; cbn
  | |- context [bool_decide (?e = ErrRecordNotFound)] =>
      destruct (bool_decide_reflect (e = ErrRecordNotFound));
      try congruence; cbn
  end.

Section Responses.
Context {collab : Collaborators} {S : Type} {controller : Persistance S}.


End Responses.

Section LoginFlow.
Context {collab : Collaborators} {S : Type} {controller : Persistance S}.

(** X2: [HandleAuth] hands out a login body only with status 200 and only
    when the body bound, the user was found, the password verified against
    the stored hash and the token was signed; the body then carries the
    username, zones and role of the stored record and that token. *)
Theorem HandleAuth_login_needs_verified_password
    (context : Context) (s : S) (status : Z) (b : Body) :
  JSON status b ∈ written (serve (HandleAuth context) s) →
  status = StatusOK ∧
  ∃ payload dbUser token,
    BindJSON_LoginBody (body context) = Ok payload ∧
    GetUserByUsername s (LoginBody_Username payload) = Ok dbUser ∧
    ValidatePassword (PasswordHash dbUser) (LoginBody_Password payload)
      = true ∧
    GenerateToken (Username dbUser) (Role dbUser) = Ok token ∧
    b = LoginResponse (Username dbUser) token (Zones dbUser) (Role dbUser).
Proof.
  handler_cases; intros Hin; apply list_elem_of_singleton in Hin;
    try discriminate.
  injection Hin as -> ->. split; [done |]. eauto 10.
Qed.

(** X3: every token [HandleAuth] asks for is a token for the username and the
    role of the record found in the store, requested after the password
    verified against that record's hash; the body of the request supplies
    neither claim. *)
Theorem HandleAuth_token_claims_from_store
    (context : Context) (s : S) (username role : string) :
  CallGenerateToken username role ∈ calls (serve (HandleAuth context) s) →
  ∃ payload dbUser,
    BindJSON_LoginBody (body context) = Ok payload ∧
    GetUserByUsername s (LoginBody_Username payload) = Ok dbUser ∧
    ValidatePassword (PasswordHash dbUser) (LoginBody_Password payload)
      = true ∧
    username = Username dbUser ∧ role = Role dbUser.
Proof.
  handler_cases; intros Hin;
    repeat (apply elem_of_cons in Hin as [Hin | Hin]; try discriminate);
    try (by apply elem_of_nil in Hin).
  all: injection Hin as -> ->; eauto 10.
Qed.

(** X4: the status of a login is 400 exactly when the body does not bind,
    401 exactly when the lookup fails or the password does not verify, 500
    exactly when the token cannot be signed, and 200 exactly when all four
    steps pass. *)
Theorem HandleAuth_status (context : Context) (s : S) :
  let w := serve (HandleAuth context) s in
  (final_status w = StatusBadRequest ↔
     ∃ bindErr, BindJSON_LoginBody (body context) = Err bindErr) ∧
  (final_status w = StatusUnauthorized ↔
     ∃ payload, BindJSON_LoginBody (body context) = Ok payload ∧
       ((∃ userErr,
           GetUserByUsername s (LoginBody_Username payload) = Err userErr) ∨
        (∃ dbUser,
           GetUserByUsername s (LoginBody_Username payload) = Ok dbUser ∧
           ValidatePassword (PasswordHash dbUser)
             (LoginBody_Password payload) = false))) ∧
  (final_status w = StatusInternalServerError ↔
     ∃ payload dbUser tokenErr,
       BindJSON_LoginBody (body context) = Ok payload ∧
       GetUserByUsername s (LoginBody_Username payload) = Ok dbUser ∧
       ValidatePassword (PasswordHash dbUser) (LoginBody_Password payload)
         = true ∧
       GenerateToken (Username dbUser) (Role dbUser) = Err tokenErr) ∧
  (final_status w = StatusOK ↔
     ∃ payload dbUser token,
       BindJSON_LoginBody (body context) = Ok payload ∧
       GetUserByUsername s (LoginBody_Username payload) = Ok dbUser ∧
       ValidatePassword (PasswordHash dbUser) (LoginBody_Password payload)
         = true ∧
       GenerateToken (Username dbUser) (Role dbUser) = Ok token).
Proof.
  intros w. subst w. handler_cases.
  all: repeat split; try discriminate; eauto 10.
  all: intros; repeat match goal with
       | H : ∃ _, _ |- _ => destruct H
       | H : _ ∧ _ |- _ => destruct H
       | H : _ ∨ _ |- _ => destruct H
       end; congruence.
Qed.

(** X5: a login is decided by the request body alone: the identity and the
    route parameters of the request play no part, so no credential is needed
    to log in and a presented one changes nothing. *)
Theorem HandleAuth_reads_only_the_body (context1 context2 : Context) (s : S) :
  body context1 = body context2 →
  serve (HandleAuth context1) s = serve (HandleAuth context2) s.
Proof.
  intros Hbody. unfold serve, HandleAuth. by rewrite Hbody.
Qed.

(** X6: the answer to a successful login does not depend on the stored hash
    nor on the password: two logins that verify, for records that agree on
    everything but the hash, are answered with the same response. *)
Theorem HandleAuth_response_hides_hash
    (context1 context2 : Context) (s1 s2 : S)
    (payload1 payload2 : LoginBody) (dbUser1 dbUser2 : User) :
  BindJSON_LoginBody (body context1) = Ok payload1 →
  GetUserByUsername s1 (LoginBody_Username payload1) = Ok dbUser1 →
  ValidatePassword (PasswordHash dbUser1) (LoginBody_Password payload1)
    = true →
  BindJSON_LoginBody (body context2) = Ok payload2 →
  GetUserByUsername s2 (LoginBody_Username payload2) = Ok dbUser2 →
  ValidatePassword (PasswordHash dbUser2) (LoginBody_Password payload2)
    = true →
  same_but_hash dbUser1 dbUser2 →
  written (serve (HandleAuth context1) s1) =
  written (serve (HandleAuth context2) s2).
Proof.
  intros Hbind1 Hget1 Hvalid1 Hbind2 Hget2 Hvalid2 (_ & Hname & Hrole & Hzones).
  run_handler. rewrite Hbind1, Hbind2. cbn. rewrite Hget1, Hget2. cbn.
  rewrite Hvalid1, Hvalid2. cbn. rewrite Hname, Hrole, Hzones.
  by destruct (GenerateToken (Username dbUser2) (Role dbUser2)).
Qed.

(** X7: the two reading handlers, login and list-users, never call an
    operation that changes the persistence state, and the state after them
    is the state before. *)
Theorem reading_handlers_never_mutate (context : Context) (s : S) :
  let login := serve (HandleAuth context) s in
  let listing := serve (HandleUsers context) s in
  db login = s ∧ Forall (λ c, is_mutation_call c = false) (calls login) ∧
  db listing = s ∧ Forall (λ c, is_mutation_call c = false) (calls listing).
Proof.
  repeat split; handler_cases; by repeat constructor.
Qed.

End LoginFlow.

Ltac break_hyps :=
  repeat match goal with
  | H : ∃ _, _ |- _ => destruct H
  | H : _ ∧ _ |- _ => destruct H
  | H : _ ∨ _ |- _ => destruct H
  end.

(** Closes a case whose hypotheses contradict the results at hand. *)
Ltac refute :=
  intros; break_hyps; simplify_eq; first [contradiction | congruence].

Section GatedFlow.
Context {collab : Collaborators} {S : Type} {controller : Persistance S}.

Lemma role_check_true_inv (role : string) :
  bool_decide (role ≠ ROLE_ADMIN) && bool_decide (role ≠ ROLE_ZONE_ADMIN)
  = true →
  ¬ recognized_role role.
Proof.
  intros Hcheck Hrole. by rewrite (role_check_accepts _ Hrole) in Hcheck.
Qed.

Lemma role_check_false_inv (role : string) :
  bool_decide (role ≠ ROLE_ADMIN) && bool_decide (role ≠ ROLE_ZONE_ADMIN)
  = false →
  recognized_role role.
Proof.
  intros Hcheck. unfold recognized_role.
  destruct (decide (role = ROLE_ADMIN)) as [|Ha]; [by left |].
  destruct (decide (role = ROLE_ZONE_ADMIN)) as [|Hz]; [by right |].
  by rewrite (role_check_rejects _ Ha Hz) in Hcheck.
Qed.

(** X8: each of the four admin-gated handlers answers with status 401
    exactly when the gate fails: a caller with the Admin role is never
    answered 401, whatever else goes wrong. *)
Theorem gated_handlers_401_iff_gate_fails (context : Context) (s : S) :
  (final_status (serve (HandleUsers context) s) = StatusUnauthorized ↔
     HasRole context ROLE_ADMIN = false) ∧
  (final_status (serve (HandleNewUser context) s) = StatusUnauthorized ↔
     HasRole context ROLE_ADMIN = false) ∧
  (final_status (serve (HandleUpdateUser context) s) = StatusUnauthorized ↔
     HasRole context ROLE_ADMIN = false) ∧
  (final_status (serve (HandleDeleteUser context) s) = StatusUnauthorized ↔
     HasRole context ROLE_ADMIN = false).
Proof.
  repeat split; handler_cases; try done; discriminate.
Qed.

(** X9: a list body is written by [HandleUsers] only for a caller with the
    Admin role and with status 200; its results are the records [GetUsers]
    returned, in that order, and its total is their number. *)
Theorem HandleUsers_results (context : Context) (s : S)
    (status : Z) (b : Body) :
  JSON status b ∈ written (serve (HandleUsers context) s) →
  HasRole context ROLE_ADMIN = true ∧ status = StatusOK ∧
  ∃ users, GetUsers s = Ok users ∧ b = RESTResult users (length users).
Proof.
  handler_cases; intros Hin; apply list_elem_of_singleton in Hin;
    try discriminate.
  injection Hin as -> ->. eauto.
Qed.

(** X10: every record [HandleNewUser] hands to [CreateUser] comes from a
    caller with the Admin role and a body that bound; its role is one of the
    two recognized roles, its password hash is what [HashPassword] returned
    for the body's password, its ID is the fresh identifier and its zones
    are not nil. *)
Theorem HandleNewUser_persists_only_validated
    (context : Context) (s : S) (user : User) :
  CallCreateUser user ∈ calls (serve (HandleNewUser context) s) →
  HasRole context ROLE_ADMIN = true ∧
  ∃ payload hash,
    BindJSON_NewUserBody (body context) = Ok payload ∧
    HashPassword (NewUserBody_Password payload) = Ok hash ∧
    user = created_user payload hash ∧
    recognized_role (Role user) ∧
    PasswordHash user = hash ∧
    ID user = NewString ∧
    Zones user ≠ None.
Proof.
  handler_cases; intros Hin;
    repeat (apply elem_of_cons in Hin as [Hin | Hin]; try discriminate);
    try (by apply elem_of_nil in Hin).
  all: injection Hin as ->; split; [done |].
  all: eexists _, _; split; [done |]; split; [done |].
  all: split; [unfold created_user;
               by destruct (NewUserBody_Zones _) |].
  all: split; [by apply role_check_false_inv |].
  all: split; [done |]; split; [done |]; cbn.
  all: by destruct (NewUserBody_Zones _).
Qed.

(** X11: every record [HandleUpdateUser] hands to [SaveUser] comes from a
    caller with the Admin role: it is the record [GetUserById] returned for
    the id of the route with the zones of the body, so its ID, username,
    password hash and role are those of the record read. *)
Theorem HandleUpdateUser_saves_read_record
    (context : Context) (s : S) (saved : User) :
  CallSaveUser saved ∈ calls (serve (HandleUpdateUser context) s) →
  HasRole context ROLE_ADMIN = true ∧
  ∃ payload user,
    BindJSON_User (body context) = Ok payload ∧
    GetUserById s (Param context "id") = Ok user ∧
    saved = updated_user user payload ∧
    ID saved = ID user ∧ Username saved = Username user ∧
    PasswordHash saved = PasswordHash user ∧ Role saved = Role user ∧
    Zones saved = Zones payload.
Proof.
  handler_cases; intros Hin;
    repeat (apply elem_of_cons in Hin as [Hin | Hin]; try discriminate);
    try (by apply elem_of_nil in Hin).
  all: injection Hin as ->; split; [done |].
  all: eexists _, _; by repeat split.
Qed.

End GatedFlow.

Section Statuses.
Context {collab : Collaborators} {S : Type} {controller : Persistance S}.

(** X12: for a caller with the Admin role, the status of a create-user
    request is 400 exactly when the body does not bind or names an
    unrecognized role, 409 exactly when [CreateUser] reports a duplicate
    key, 500 exactly when the hashing fails or [CreateUser] reports any
    other error, and the default 200 exactly when [CreateUser] reports
    none. *)
Theorem HandleNewUser_status (context : Context) (s : S) :
  HasRole context ROLE_ADMIN = true →
  let w := serve (HandleNewUser context) s in
  (final_status w = StatusBadRequest ↔
     (∃ bindErr, BindJSON_NewUserBody (body context) = Err bindErr) ∨
     (∃ payload, BindJSON_NewUserBody (body context) = Ok payload ∧
        ¬ recognized_role (NewUserBody_Role payload))) ∧
  (final_status w = StatusConflict ↔
     ∃ payload hash s',
       BindJSON_NewUserBody (body context) = Ok payload ∧
       recognized_role (NewUserBody_Role payload) ∧
       HashPassword (NewUserBody_Password payload) = Ok hash ∧
       CreateUser s (created_user payload hash)
         = (Some ErrDuplicatedKey, s')) ∧
  (final_status w = StatusInternalServerError ↔
     ∃ payload,
       BindJSON_NewUserBody (body context) = Ok payload ∧
       recognized_role (NewUserBody_Role payload) ∧
       ((∃ hashErr,
           HashPassword (NewUserBody_Password payload) = Err hashErr) ∨
        (∃ hash storeErr s',
           HashPassword (NewUserBody_Password payload) = Ok hash ∧
           CreateUser s (created_user payload hash) = (Some storeErr, s') ∧
           storeErr ≠ ErrDuplicatedKey))) ∧
  (final_status w = StatusOK ↔
     ∃ payload hash s',
       BindJSON_NewUserBody (body context) = Ok payload ∧
       recognized_role (NewUserBody_Role payload) ∧
       HashPassword (NewUserBody_Password payload) = Ok hash ∧
       CreateUser s (created_user payload hash) = (None, s')).
Proof.
  intros Hgate w. subst w.
  destruct (BindJSON_NewUserBody (body context)) as [payload|bindErr]
    eqn:Hbind.
  2: { run_handler. rewrite Hgate, Hbind. cbn.
       repeat split; try discriminate; eauto;
         refute. }
  destruct (decide (recognized_role (NewUserBody_Role payload)))
    as [Hrole|Hrole].
  2: { rewrite (HandleNewUser_invalid_role _ s _ Hgate Hbind Hrole).
       unfold final_status. cbn.
       repeat split; try discriminate; eauto;
         refute. }
  destruct (HashPassword (NewUserBody_Password payload))
    as [hash|hashErr] eqn:Hhash.
  2: { run_handler. rewrite Hgate, Hbind. cbn.
       rewrite (role_check_accepts _ Hrole), Hhash. cbn.
       repeat split; try discriminate; eauto 10;
         try refute. }
  rewrite (HandleNewUser_reaches_store _ s _ _ Hgate Hbind Hrole Hhash).
  destruct (CreateUser s (created_user payload hash))
    as [[[ | | msg]|] s'] eqn:Hstore; unfold final_status; cbn.
  all: repeat split; try discriminate; eauto 10.
  all: try refute.
  all: intros _; exists payload; split; [done |]; split; [done |]; right.
  all: eexists _, _, _; split; [done |]; split; [done |]; discriminate.
Qed.

(** X13: for a caller with the Admin role, the status of an update-user
    request is 400 exactly when the body does not bind or [GetUserById]
    fails for the id of the route, 500 exactly when [SaveUser] reports an
    error, and the default 200 exactly when [SaveUser] reports none; the
    body is bound before the store is read, so a body that does not bind
    costs no lookup. *)
Theorem HandleUpdateUser_status (context : Context) (s : S) :
  HasRole context ROLE_ADMIN = true →
  let w := serve (HandleUpdateUser context) s in
  let id := Param context "id" in
  (final_status w = StatusBadRequest ↔
     (∃ bindErr, BindJSON_User (body context) = Err bindErr) ∨
     (∃ userErr, GetUserById s id = Err userErr)) ∧
  (final_status w = StatusInternalServerError ↔
     ∃ payload user storeErr s',
       BindJSON_User (body context) = Ok payload ∧
       GetUserById s id = Ok user ∧
       SaveUser s (updated_user user payload) = (Some storeErr, s')) ∧
  (final_status w = StatusOK ↔
     ∃ payload user s',
       BindJSON_User (body context) = Ok payload ∧
       GetUserById s id = Ok user ∧
       SaveUser s (updated_user user payload) = (None, s')) ∧
  ((∃ bindErr, BindJSON_User (body context) = Err bindErr) → calls w = []).
Proof.
  intros Hgate w id. subst w.
  destruct (BindJSON_User (body context)) as [payload|bindErr] eqn:Hbind.
  2: { run_handler. rewrite Hgate, Hbind. cbn.
       repeat split; try discriminate; eauto;
         refute. }
  destruct (GetUserById s id) as [user|userErr] eqn:Hget.
  2: { run_handler. rewrite Hgate, Hbind. cbn. fold id. rewrite Hget. cbn.
       repeat split; try discriminate; eauto;
         refute. }
  rewrite (HandleUpdateUser_reaches_store _ s _ _ Hgate Hbind Hget).
  fold (updated_user user payload).
  destruct (SaveUser s (updated_user user payload)) as [[storeErr|] s']
    eqn:Hsave; unfold final_status; cbn.
  all: repeat split; try discriminate; eauto 10.
  all: refute.
Qed.

(** X14: a delete-user request is never answered with a 5xx status.  For a
    caller with the Admin role the handler calls [DeleteUser] once with the
    id of the route: a not-found error is answered 400 "user does not
    exist" without the error, any other error 400 "unable to delete user"
    with it, and no error leaves the default 200. *)
Theorem HandleDeleteUser_outcome (context : Context) (s : S) :
  let w := serve (HandleDeleteUser context) s in
  let id := Param context "id" in
  final_status w ≠ StatusInternalServerError ∧
  (HasRole context ROLE_ADMIN = true →
   calls w = [CallDeleteUser id] ∧
   db w = (DeleteUser s id).2 ∧
   written w =
     match (DeleteUser s id).1 with
     | None => []
     | Some ErrRecordNotFound =>
         [RESTError StatusBadRequest "user does not exist" None]
     | Some deleteErr =>
         [RESTError StatusBadRequest "unable to delete user" (Some deleteErr)]
     end).
Proof.
  intros w id. subst w id. split.
  - handler_cases; discriminate.
  - intros Hgate. run_handler. rewrite Hgate. cbn.
    by destruct (DeleteUser s _) as [[[ | | msg]|] s'].
Qed.

(** X15: list-users reads nothing of the request but the identity, and
    delete-user nothing but the identity and the id of the route: the body
    of the request is ignored by both. *)
Theorem HandleUsers_HandleDeleteUser_ignore_body
    (context1 context2 : Context) (s : S) :
  identity context1 = identity context2 →
  serve (HandleUsers context1) s = serve (HandleUsers context2) s ∧
  (Param context1 "id" = Param context2 "id" →
   serve (HandleDeleteUser context1) s = serve (HandleDeleteUser context2) s).
Proof.
  intros Hid. split.
  - unfold serve, HandleUsers, HasRole. by rewrite Hid.
  - intros Hparam. unfold serve, HandleDeleteUser, HasRole.
    by rewrite Hid, Hparam.
Qed.

(** X16: each mutating handler changes the persistence state through at
    most one call, and only of its own kind: [HandleNewUser] through
    [CreateUser], [HandleUpdateUser] through [SaveUser], [HandleDeleteUser]
    through [DeleteUser]. *)
Theorem mutating_handlers_mutate_once (context : Context) (s : S) :
  let created := calls (serve (HandleNewUser context) s) in
  let updated := calls (serve (HandleUpdateUser context) s) in
  let deleted := calls (serve (HandleDeleteUser context) s) in
  (length (List.filter is_mutation_call created) ≤ 1)%nat ∧
  Forall (λ c, is_mutation_call c = true → ∃ user, c = CallCreateUser user)
    created ∧
  (length (List.filter is_mutation_call updated) ≤ 1)%nat ∧
  Forall (λ c, is_mutation_call c = true → ∃ user, c = CallSaveUser user)
    updated ∧
  (length (List.filter is_mutation_call deleted) ≤ 1)%nat ∧
  Forall (λ c, is_mutation_call c = true → ∃ id, c = CallDeleteUser id)
    deleted.
Proof.
  repeat split; handler_cases; try lia; repeat constructor;
    cbn; try discriminate; eauto.
Qed.

End Statuses.

Section Composition.
Context {collab : Collaborators} {S : Type} {controller : Persistance S}.

(** X17: for a caller with the Admin role, the status of a list-users
    request is 500 exactly when [GetUsers] fails, the response then carrying
    the store's error, and 200 exactly when it returns. *)
Theorem HandleUsers_status (context : Context) (s : S) :
  HasRole context ROLE_ADMIN = true →
  let w := serve (HandleUsers context) s in
  (final_status w = StatusInternalServerError ↔
     ∃ usersErr, GetUsers s = Err usersErr ∧
       written w =
         [RESTError StatusInternalServerError "unable to get users"
            (Some usersErr)]) ∧
  (final_status w = StatusOK ↔ ∃ users, GetUsers s = Ok users).
Proof.
  intros Hgate w. subst w. run_handler. rewrite Hgate. cbn.
  destruct (GetUsers s) as [users|usersErr]; cbn;
    repeat split; try discriminate; eauto; refute.
Qed.


End Composition.

Section UpdateFlow.
Context {collab : Collaborators} {S : Type} {controller : Persistance S}.


End UpdateFlow.

(** * The further properties on the concrete deployment *)

Section Deployment.
#[local] Existing Instance test_collaborators.

Lemma HandleAuth_login_needs_verified_password_witness :
  let context := login_request "alice|pw1" in
  let b := LoginResponse "alice" "token:alice:admin" (Some ["z1"]) "admin" in
  JSON StatusOK b ∈ written (serve (HandleAuth context) one_user) ∧
  ∃ payload dbUser token,
    BindJSON_LoginBody (body context) = Ok payload ∧
    GetUserByUsername one_user (LoginBody_Username payload) = Ok dbUser ∧
    ValidatePassword (PasswordHash dbUser) (LoginBody_Password payload)
      = true ∧
    GenerateToken (Username dbUser) (Role dbUser) = Ok token ∧
    b = LoginResponse (Username dbUser) token (Zones dbUser) (Role dbUser).
Proof.
  intros context b.
  assert (Hin : JSON StatusOK b ∈ written (serve (HandleAuth context) one_user))
    by (vm_compute; constructor).
  split; [exact Hin |].
  exact (proj2 (HandleAuth_login_needs_verified_password
                  context one_user StatusOK b Hin)).
Defined.

Lemma HandleAuth_token_claims_from_store_witness :
  let context := login_request "alice|pw1" in
  CallGenerateToken "alice" "admin"
    ∈ calls (serve (HandleAuth context) one_user) ∧
  ∃ payload dbUser,
    BindJSON_LoginBody (body context) = Ok payload ∧
    GetUserByUsername one_user (LoginBody_Username payload) = Ok dbUser ∧
    ValidatePassword (PasswordHash dbUser) (LoginBody_Password payload)
      = true ∧
    "alice" = Username dbUser ∧ "admin" = Role dbUser.
Proof.
  intros context.
  assert (Hin : CallGenerateToken "alice" "admin"
                  ∈ calls (serve (HandleAuth context) one_user))
    by (vm_compute; repeat constructor).
  split; [exact Hin |].
  exact (HandleAuth_token_claims_from_store context one_user _ _ Hin).
Defined.

Lemma HandleAuth_reads_only_the_body_witness :
  body (login_request "alice|pw1") = body (user_request root "id-1" "alice|pw1")
  ∧ serve (HandleAuth (login_request "alice|pw1")) one_user =
    serve (HandleAuth (user_request root "id-1" "alice|pw1")) one_user.
Proof.
  split; [reflexivity |].
  apply (HandleAuth_reads_only_the_body
           (login_request "alice|pw1") (user_request root "id-1" "alice|pw1")
           one_user).
  reflexivity.
Defined.

Lemma HandleAuth_response_hides_hash_witness :
  same_but_hash (user_of "id-1" alice_row)
    (mkUser "id-1" "alice" "hash(pw2)" "admin" (Some ["z1"])) ∧
  written (serve (HandleAuth (login_request "alice|pw1")) one_user) =
  written (serve (HandleAuth (login_request "alice|pw2")) one_user_rehashed).
Proof.
  assert (Hsame : same_but_hash (user_of "id-1" alice_row)
            (mkUser "id-1" "alice" "hash(pw2)" "admin" (Some ["z1"])))
    by (repeat split).
  split; [exact Hsame |].
  apply (HandleAuth_response_hides_hash
           (login_request "alice|pw1") (login_request "alice|pw2")
           one_user one_user_rehashed
           (mkLoginBody "alice" "pw1") (mkLoginBody "alice" "pw2")
           (user_of "id-1" alice_row)
           (mkUser "id-1" "alice" "hash(pw2)" "admin" (Some ["z1"])));
    first [exact Hsame | vm_compute; reflexivity].
Defined.

Lemma HandleUsers_results_witness :
  let context := users_request root EmptyString in
  let b := RESTResult [user_of "id-1" alice_row] 1 in
  JSON StatusOK b ∈ written (serve (HandleUsers context) one_user) ∧
  HasRole context ROLE_ADMIN = true ∧ StatusOK = StatusOK ∧
  ∃ users, GetUsers one_user = Ok users ∧ b = RESTResult users (length users).
Proof.
  intros context b.
  assert (Hin : JSON StatusOK b ∈ written (serve (HandleUsers context) one_user))
    by (vm_compute; constructor).
  split; [exact Hin |].
  exact (HandleUsers_results context one_user StatusOK b Hin).
Defined.

Lemma HandleNewUser_persists_only_validated_witness :
  let context := users_request root "bob|pw|zone_admin" in
  let user := mkUser "id-2" "bob" "hash(pw)" "zone_admin" (Some []) in
  CallCreateUser user ∈ calls (serve (HandleNewUser context) one_user) ∧
  HasRole context ROLE_ADMIN = true ∧
  ∃ payload hash,
    BindJSON_NewUserBody (body context) = Ok payload ∧
    HashPassword (NewUserBody_Password payload) = Ok hash ∧
    user = created_user payload hash ∧
    recognized_role (Role user) ∧
    PasswordHash user = hash ∧
    ID user = NewString ∧
    Zones user ≠ None.
Proof.
  intros context user.
  assert (Hin : CallCreateUser user
                  ∈ calls (serve (HandleNewUser context) one_user))
    by (vm_compute; repeat constructor).
  split; [exact Hin |].
  exact (HandleNewUser_persists_only_validated context one_user user Hin).
Defined.

Lemma HandleUpdateUser_saves_read_record_witness :
  let context := user_request root "id-1" "z2|z3" in
  let saved := mkUser "id-1" "alice" "hash(pw1)" "admin" (Some ["z2"; "z3"]) in
  CallSaveUser saved ∈ calls (serve (HandleUpdateUser context) one_user) ∧
  HasRole context ROLE_ADMIN = true ∧
  ∃ payload user,
    BindJSON_User (body context) = Ok payload ∧
    GetUserById one_user (Param context "id") = Ok user ∧
    saved = updated_user user payload ∧
    ID saved = ID user ∧ Username saved = Username user ∧
    PasswordHash saved = PasswordHash user ∧ Role saved = Role user ∧
    Zones saved = Zones payload.
Proof.
  intros context saved.
  assert (Hin : CallSaveUser saved
                  ∈ calls (serve (HandleUpdateUser context) one_user))
    by (vm_compute; repeat constructor).
  split; [exact Hin |].
  exact (HandleUpdateUser_saves_read_record context one_user saved Hin).
Defined.

Lemma HandleNewUser_status_witness :
  let context := users_request root "alice|pw|admin" in
  HasRole context ROLE_ADMIN = true ∧
  final_status (serve (HandleNewUser context) one_user) = StatusConflict.
Proof.
  intros context.
  assert (Hgate : HasRole context ROLE_ADMIN = true) by reflexivity.
  split; [exact Hgate |].
  destruct (HandleNewUser_status context one_user Hgate)
    as (_ & Hconflict & _).
  apply Hconflict.
  exists (mkNewUserBody "alice" "pw" "admin" None), "hash(pw)", one_user.
  split; [reflexivity |]. split; [by left |].
  split; [reflexivity |]. vm_compute; reflexivity.
Defined.

Lemma HandleUpdateUser_status_witness :
  let context := user_request root "id-9" "z2" in
  HasRole context ROLE_ADMIN = true ∧
  final_status (serve (HandleUpdateUser context) one_user) = StatusBadRequest.
Proof.
  intros context.
  assert (Hgate : HasRole context ROLE_ADMIN = true) by reflexivity.
  split; [exact Hgate |].
  destruct (HandleUpdateUser_status context one_user Hgate) as (Hbad & _).
  apply Hbad. right. exists ErrRecordNotFound. vm_compute; reflexivity.
Defined.

Lemma HandleUsers_HandleDeleteUser_ignore_body_witness :
  let context1 := user_request root "id-1" "alice|pw1" in
  let context2 := user_request root "id-1" EmptyString in
  identity context1 = identity context2 ∧
  Param context1 "id" = Param context2 "id" ∧
  serve (HandleUsers context1) one_user = serve (HandleUsers context2) one_user
  ∧ serve (HandleDeleteUser context1) one_user =
    serve (HandleDeleteUser context2) one_user.
Proof.
  intros context1 context2.
  destruct (HandleUsers_HandleDeleteUser_ignore_body context1 context2
              one_user eq_refl) as [Hlist Hdelete].
  split; [reflexivity |]. split; [reflexivity |].
  split; [exact Hlist | exact (Hdelete eq_refl)].
Defined.

Lemma HandleUsers_status_witness :
  let context := users_request root EmptyString in
  HasRole context ROLE_ADMIN = true ∧
  final_status (serve (HandleUsers context) one_user) = StatusOK.
Proof.
  intros context.
  assert (Hgate : HasRole context ROLE_ADMIN = true) by reflexivity.
  split; [exact Hgate |].
  destruct (HandleUsers_status context one_user Hgate) as (_ & Hok).
  apply Hok. by eexists.
Defined.



End Deployment.

Section Bodies.
Context {collab : Collaborators} {S : Type} {controller : Persistance S}.

(** X20: the three mutating handlers never write a JSON body: whatever the
    request, create, update and delete answer with a [RESTError] or with
    nothing, so neither the created nor the saved record, and with it the
    password hash, is echoed to the caller. *)
Theorem mutating_handlers_write_no_body (context : Context) (s : S) :
  Forall (λ r, ∃ status message err, r = RESTError status message err)
    (written (serve (HandleNewUser context) s)) ∧
  Forall (λ r, ∃ status message err, r = RESTError status message err)
    (written (serve (HandleUpdateUser context) s)) ∧
  Forall (λ r, ∃ status message err, r = RESTError status message err)
    (written (serve (HandleDeleteUser context) s)).
Proof.
  repeat split; handler_cases; repeat constructor; eauto.
Qed.

End Bodies.

Section DeploymentOutcome.
#[local] Existing Instance test_collaborators.

Lemma HandleDeleteUser_outcome_witness :
  let context := user_request root "id-1" EmptyString in
  let w := serve (HandleDeleteUser context) one_user in
  HasRole context ROLE_ADMIN = true ∧
  final_status w ≠ StatusInternalServerError ∧
  calls w = [CallDeleteUser "id-1"] ∧
  db w = ∅ ∧
  written w = [].
Proof.
  intros context w.
  destruct (HandleDeleteUser_outcome context one_user) as [Hstatus Hadmin].
  destruct (Hadmin eq_refl) as (Hcalls & Hdb & Hwritten).
  split; [reflexivity |]. split; [exact Hstatus |].
  split; [exact Hcalls |]. split; [| exact Hwritten].
  fold w in Hdb. rewrite Hdb. vm_compute. reflexivity.
Defined.

End DeploymentOutcome.
